(** * DrawingCNC: the camera-to-EPS pipeline script [drawingcnc.py]

    The script is glue around three external programs.  Its own code is a
    straight line of calls into Python's [subprocess], [sys] and [open];
    the embedding below keeps that shape: every function of the script is
    a computation in a small state-and-exception monad [Py] over a
    [World] that holds the installed executables, the table of spawned
    child processes, the file system and what was printed on stderr.

    The primitives ([Popen], [communicate], [wait], [close_stdout],
    [sys_exit], [with_open_w], [fh_write]) model the documented behaviour
    of the CPython 3 library calls the script makes.  The external
    programs are parameters of the world. *)

From Stdlib Require Import ZArith String List.
From stdpp Require Import base gmap strings list.

Local Open Scope string_scope.
Local Open Scope list_scope.

Abbreviation bytes := (list Byte.byte).

(** ** Python values and exceptions *)

(** The values the script handles: [None], a [bytes] object, a [str].
    A [str] is represented by its UTF-8 encoding. *)
Inductive pyval : Type :=
  | PyNone
  | PyBytes (b : bytes)
  | PyStr (s : string).

(** The exceptions that the library calls of the script can raise.
    [SystemExit msg] is what [sys.exit(msg)] raises for a [str] [msg]. *)
Inductive exn : Type :=
  | FileNotFoundError
  | TypeError
  | IndexError
  | ValueError
  | AttributeError
  | SystemExit (msg : string).

(** ** External programs and child processes *)

(** An executable, seen from the script: either it produces its output
    and exit status without reading its standard input ([Source]), or it
    reads standard input up to end-of-file and then produces them
    ([Filter]).  A tool that fails at once (bad arguments, say) is a
    [Source] with a non-zero status.  Tools that loop for ever on their
    own are left out: a child blocks only while waiting for input. *)
Inductive Tool : Type :=
  | Source (out : bytes) (status : Z)
  | Filter (f : bytes → bytes * Z).

(** The [stdin=] argument of [subprocess.Popen]: absent (inherit the
    script's own stdin), [subprocess.PIPE], or the [stdout] file object
    of an earlier child. *)
Inductive stdin_spec : Type :=
  | StdinInherit
  | StdinPIPE
  | StdinFrom (pid : nat).

(** The [stdout=] argument: absent or [subprocess.PIPE]. *)
Inductive stdout_spec : Type :=
  | StdoutInherit
  | StdoutPIPE.

(** A [Popen] object together with the child it stands for. *)
Record Proc : Type := mkProc {
  p_cmd : string;            (* the command string given to Popen *)
  p_tool : Tool;             (* the executable it resolved to *)
  p_stdin : stdin_spec;
  p_stdin_buf : bytes;       (* what the script wrote into a PIPE stdin *)
  p_stdin_closed : bool;     (* has the script closed that PIPE *)
  p_stdout : stdout_spec;
  p_stdout_open : bool;      (* the script's file object for a PIPE stdout *)
  p_returncode : option Z    (* Popen.returncode: set once waited for *)
}.

Inductive stderr_item : Type :=
  | Message (s : string)
  | Traceback (e : exn).

Record World : Type := mkWorld {
  installed : gmap string Tool;   (* command string -> executable *)
  tty_in : bytes;                 (* the script's own standard input *)
  procs : list Proc;              (* children, the handle is the index *)
  files : gmap string bytes;      (* path -> content *)
  stdout_log : list string;       (* what the script printed on stdout *)
  stderr_log : list stderr_item   (* what ended up on stderr *)
}.

Definition set_procs (ps : list Proc) (w : World) : World :=
  mkWorld (installed w) (tty_in w) ps (files w) (stdout_log w) (stderr_log w).

Definition set_files (fs : gmap string bytes) (w : World) : World :=
  mkWorld (installed w) (tty_in w) (procs w) fs (stdout_log w) (stderr_log w).

Definition print_stderr (i : stderr_item) (w : World) : World :=
  mkWorld (installed w) (tty_in w) (procs w) (files w) (stdout_log w)
          (stderr_log w ++ [i]).

(** What a child writes to its stdout in total and its exit status, or
    [None] when it blocks for ever.  [done] holds the results of the
    children spawned before it: a child reading from an earlier child's
    stdout sees end-of-file when that child has finished. *)
Definition run_proc (tty : bytes) (done : list (option (bytes * Z)))
    (p : Proc) : option (bytes * Z) :=
  match p_tool p with
  | Source out st => Some (out, st)
  | Filter f =>
      match p_stdin p with
      | StdinInherit => Some (f tty)
      | StdinPIPE =>
          if p_stdin_closed p then Some (f (p_stdin_buf p)) else None
      | StdinFrom q =>
          match done !! q with
          | Some (Some (o, _)) => Some (f o)
          | _ => None
          end
      end
  end.

Definition outputs (tty : bytes) (ps : list Proc)
    : list (option (bytes * Z)) :=
  fold_left (λ done p, done ++ [run_proc tty done p]) ps [].

Definition proc_result (w : World) (pid : nat) : option (bytes * Z) :=
  match outputs (tty_in w) (procs w) !! pid with
  | Some r => r
  | None => None
  end.

(** ** The monad of script computations *)

Inductive Outcome (A : Type) : Type :=
  | Returned (a : A) (w : World)
  | Raised (e : exn) (w : World)
  | Hung (w : World).
Arguments Returned {A} a w.
Arguments Raised {A} e w.
Arguments Hung {A} w.

Definition Py (A : Type) : Type := World → Outcome A.

#[global] Instance Py_ret : MRet Py := λ A a w, Returned a w.

#[global] Instance Py_bind : MBind Py := λ A B k m w,
  match m w with
  | Returned a w' => k a w'
  | Raised e w' => Raised e w'
  | Hung w' => Hung w'
  end.

Definition raise {A : Type} (e : exn) : Py A := λ w, Raised e w.

Definition final_world {A : Type} (o : Outcome A) : World :=
  match o with
  | Returned _ w => w
  | Raised _ w => w
  | Hung w => w
  end.

(** [try: body except FileNotFoundError: handler].  Other exceptions,
    [SystemExit] included, pass through. *)
Definition try_except_FileNotFoundError {A : Type}
    (body handler : Py A) : Py A := λ w,
  match body w with
  | Raised FileNotFoundError w' => handler w'
  | o => o
  end.

(** ** Library calls *)

(** [subprocess.Popen(cmd, stdin=..., stdout=...)].  The handles are
    resolved first (a closed file object given as [stdin] is a
    [ValueError]), then the executable is launched: [FileNotFoundError]
    when the command does not resolve.  How a command string resolves to
    an executable is the platform's business: it is the [installed]
    table of the world, keyed by the string exactly as the script gives
    it.  The new handle is returned. *)
Definition Popen (cmd : string) (sin : stdin_spec) (sout : stdout_spec)
    : Py nat := λ w,
  let usable :=
    match sin with
    | StdinFrom q =>
        match procs w !! q with
        | Some p =>
            match p_stdout p with
            | StdoutPIPE => p_stdout_open p
            | StdoutInherit => false
            end
        | None => false
        end
    | _ => true
    end in
  if usable then
    match installed w !! cmd with
    | Some t =>
        Returned (length (procs w))
          (set_procs (procs w ++ [mkProc cmd t sin [] false sout true None]) w)
    | None => Raised FileNotFoundError w
    end
  else Raised ValueError w.

(** [p.stdout.close()]: closes the script's end of the child's stdout
    pipe; the child and whoever inherited the pipe are unaffected. *)
Definition close_stdout (pid : nat) : Py unit := λ w,
  match procs w !! pid with
  | Some p =>
      match p_stdout p with
      | StdoutPIPE =>
          Returned tt
            (set_procs
               (<[pid := mkProc (p_cmd p) (p_tool p) (p_stdin p)
                           (p_stdin_buf p) (p_stdin_closed p) (p_stdout p)
                           false (p_returncode p)]> (procs w)) w)
      | StdoutInherit => Raised AttributeError w
      end
  | None => Raised ValueError w
  end.

(** [p.wait()]: blocks until the child has terminated, records and
    returns its exit status. *)
Definition wait (pid : nat) : Py Z := λ w,
  match procs w !! pid with
  | Some p =>
      match proc_result w pid with
      | Some (_, st) =>
          Returned st
            (set_procs
               (<[pid := mkProc (p_cmd p) (p_tool p) (p_stdin p)
                           (p_stdin_buf p) (p_stdin_closed p) (p_stdout p)
                           (p_stdout_open p) (Some st)]> (procs w)) w)
      | None => Hung w
      end
  | None => Raised ValueError w
  end.

(** [p.communicate()] with no input: closes the child's stdin if it is a
    PIPE of the script, reads its stdout PIPE up to end-of-file and
    closes it, then waits for the child.  Returns the pair
    [(stdout_data, stderr_data)]; stderr is never a PIPE here. *)
Definition communicate (pid : nat) : Py (pyval * pyval) := λ w,
  match procs w !! pid with
  | Some p =>
      let closed :=
        match p_stdin p with
        | StdinPIPE => true
        | _ => p_stdin_closed p
        end in
      let p1 := mkProc (p_cmd p) (p_tool p) (p_stdin p) (p_stdin_buf p)
                  closed (p_stdout p) (p_stdout_open p) (p_returncode p) in
      let w1 := set_procs (<[pid := p1]> (procs w)) w in
      match p_stdout p, p_stdout_open p with
      | StdoutPIPE, false => Raised ValueError w1
      | _, _ =>
          match proc_result w1 pid with
          | Some (out, st) =>
              let data :=
                match p_stdout p with
                | StdoutPIPE => PyBytes out
                | StdoutInherit => PyNone
                end in
              Returned (data, PyNone)
                (set_procs
                   (<[pid := mkProc (p_cmd p) (p_tool p) (p_stdin p)
                               (p_stdin_buf p) closed (p_stdout p)
                               false (Some st)]> (procs w)) w)
          | None => Hung w1
          end
      end
  | None => Raised ValueError w
  end.

(** [sys.exit(msg)] with a [str]. *)
Definition sys_exit {A : Type} (msg : string) : Py A :=
  raise (SystemExit msg).

(** [l[i]] on a list. *)
Definition index {A : Type} (l : list A) (i : nat) : Py A := λ w,
  match l !! i with
  | Some a => Returned a w
  | None => Raised IndexError w
  end.

(** [fh.write(v)] on a text-mode file: a [str] is encoded and appended,
    anything else is a [TypeError]. *)
Definition fh_write (fh : string) (v : pyval) : Py unit := λ w,
  match v with
  | PyStr s =>
      Returned tt
        (set_files
           (<[fh := default [] (files w !! fh) ++ list_byte_of_string s]>
              (files w)) w)
  | _ => Raised TypeError w
  end.

(** [with open(path, "w", encoding="utf-8") as fh: body].  Opening
    creates the file or truncates it; leaving the block, normally or by
    an exception, closes it.  The handle is the path.  Paths that cannot
    be opened for writing are left out. *)
Definition with_open_w {A : Type} (path : string) (body : string → Py A)
    : Py A := λ w,
  body path (set_files (<[path := []]> (files w)) w).

(** ** The script *)

Definition capture_cmd : string :=
  "take_calibrated_picture/take_calibrated_picture".
Definition convert_cmd : string := "convert -:jpg pnm:-".
Definition potrace_cmd : string := "potrace".
Definition build_msg : string :=
  "Please build the take_calibrated_picture script first.".

(** [getCalibratedJPEG()] *)
Definition getCalibratedJPEG : Py pyval :=
  output ← try_except_FileNotFoundError
      (calibrated ← Popen capture_cmd StdinInherit StdoutPIPE;
       r ← communicate calibrated;
       mret (r.1))
      (sys_exit build_msg);
  mret output.

(** [jpegToEPS(jpg_data)] *)
Definition jpegToEPS (jpg_data : pyval) : Py pyval :=
  convert ← Popen convert_cmd StdinPIPE StdoutPIPE;
  potrace ← Popen potrace_cmd (StdinFrom convert) StdoutPIPE;
  close_stdout convert;;
  r ← communicate potrace;
  let output := r.1 in
  wait convert;;
  mret output.

(** [getEPSDrawing()] *)
Definition getEPSDrawing : Py pyval :=
  jpeg_data ← getCalibratedJPEG;
  eps_data ← jpegToEPS jpeg_data;
  mret eps_data.

(** The [if __name__ == "__main__":] block, for a given [sys.argv]. *)
Definition main (argv : list string) : Py unit :=
  (if bool_decide (length argv < 2)%nat then
     a0 ← index argv 0;
     sys_exit ("Usage: " +:+ a0 +:+ " OUTPUT_FILENAME.eps.")
   else mret tt);;
  eps_data ← getEPSDrawing;
  a1 ← index argv 1;
  with_open_w a1 (λ fh, fh_write fh eps_data).

(** ** Running the script *)

(** A command line: the interpreter always puts the script's name in
    [sys.argv[0]], the arguments given by the user follow. *)
Record Invocation : Type := mkInvocation {
  script : string;
  args : list string
}.

Definition sys_argv (inv : Invocation) : list string :=
  script inv :: args inv.

(** How a run of the script ends: with an exit status, or never. *)
Inductive Termination : Type :=
  | Exit (status : Z) (w : World)
  | NoExit (w : World).

(** The interpreter around [main]: falling off the end is status 0;
    [SystemExit] with a [str] prints it on stderr and gives status 1; any
    other uncaught exception prints a traceback and gives status 1. *)
Definition run_script (inv : Invocation) (w : World) : Termination :=
  match main (sys_argv inv) w with
  | Returned _ w' => Exit 0 w'
  | Raised (SystemExit msg) w' => Exit 1 (print_stderr (Message msg) w')
  | Raised e w' => Exit 1 (print_stderr (Traceback e) w')
  | Hung w' => NoExit w'
  end.

(** ** Sample environments *)

Definition jpeg_sample : bytes := list_byte_of_string "JFIF-sample".
Definition pnm_of (b : bytes) : bytes := list_byte_of_string "P4 " ++ b.
Definition eps_of (b : bytes) : bytes := list_byte_of_string "%!PS " ++ b.

Definition capture_ok : Tool := Source jpeg_sample 0.
Definition convert_ok : Tool := Filter (λ b, (pnm_of b, 0%Z)).
Definition potrace_ok : Tool := Filter (λ b, (eps_of b, 0%Z)).

(** A [convert] that gives up at once without reading its input, writes
    nothing and exits with status 1; a [potrace] that traces what it gets
    and exits with status 2. *)
Definition convert_failing : Tool := Source [] 1.
Definition potrace_failing : Tool := Filter (λ b, (eps_of b, 2%Z)).

Definition old_files : gmap string bytes :=
  <["out.eps" := list_byte_of_string "old"]> ∅.

(** Everything is built and behaves as its manual says: the capture tool
    writes a picture, [convert] and [potrace] are filters. *)
Definition world_ok : World :=
  mkWorld
    (<[capture_cmd := capture_ok]>
       (<[convert_cmd := convert_ok]> (<[potrace_cmd := potrace_ok]> ∅)))
    [] [] old_files [] [].

(** As [world_ok], with the failing [convert] and [potrace]. *)
Definition world_convert_fails : World :=
  mkWorld
    (<[capture_cmd := capture_ok]>
       (<[convert_cmd := convert_failing]>
          (<[potrace_cmd := potrace_failing]> ∅)))
    [] [] old_files [] [].

(** As [world_ok], with the capture tool not built. *)
Definition world_no_capture : World :=
  mkWorld
    (<[convert_cmd := convert_ok]> (<[potrace_cmd := potrace_ok]> ∅))
    [] [] old_files [] [].

(** As [world_ok], with a capture tool that writes nothing and exits
    with status 3. *)
Definition capture_failing : Tool := Source [] 3.
Definition world_capture_fails : World :=
  mkWorld
    (<[capture_cmd := capture_failing]>
       (<[convert_cmd := convert_ok]> (<[potrace_cmd := potrace_ok]> ∅)))
    [] [] old_files [] [].

(** As [world_ok], with [convert] not installed. *)
Definition world_no_convert : World :=
  mkWorld
    (<[capture_cmd := capture_ok]> (<[potrace_cmd := potrace_ok]> ∅))
    [] [] old_files [] [].

(** As [world_ok], with [potrace] not installed. *)
Definition world_no_potrace : World :=
  mkWorld
    (<[capture_cmd := capture_ok]> (<[convert_cmd := convert_ok]> ∅))
    [] [] old_files [] [].

(** As [world_convert_fails], with a [potrace] that does not read its
    input either. *)
Definition potrace_source : Tool := Source (eps_of []) 0.
Definition world_convert_filter_potrace_source : World :=
  mkWorld
    (<[capture_cmd := capture_ok]>
       (<[convert_cmd := convert_ok]> (<[potrace_cmd := potrace_source]> ∅)))
    [] [] old_files [] [].

Definition inv_ok : Invocation := mkInvocation "drawingcnc.py" ["out.eps"].
Definition inv_noarg : Invocation := mkInvocation "drawingcnc.py" [].
Definition inv_extra1 : Invocation :=
  mkInvocation "drawingcnc.py" ["out.eps"; "--verbose"].
Definition inv_extra2 : Invocation :=
  mkInvocation "./drawingcnc.py" ["out.eps"; "a"; "b"].

(** ** Derived notions used in the statements *)

(** What a tool produces once its input has come to an end. *)
Definition feed (t : Tool) (input : bytes) : bytes * Z :=
  match t with
  | Source o st => (o, st)
  | Filter f => f input
  end.

Definition term_world (t : Termination) : World :=
  match t with
  | Exit _ w => w
  | NoExit w => w
  end.

(** A computation that leaves the file system alone, however it ends. *)
Definition keeps_files {A : Type} (m : Py A) : Prop :=
  ∀ w, files (final_world (m w)) = files w.

(** The [Popen] objects [jpegToEPS] creates, in the states they go
    through: [opened] is the script's handle on the child's stdout,
    [rc] its [returncode]. *)
Definition convert_proc (t : Tool) (opened : bool) (rc : option Z) : Proc :=
  mkProc convert_cmd t StdinPIPE [] false StdoutPIPE opened rc.

Definition potrace_proc (t : Tool) (src : nat) (opened : bool)
    (rc : option Z) : Proc :=
  mkProc potrace_cmd t (StdinFrom src) [] false StdoutPIPE opened rc.

Definition capture_proc (t : Tool) (opened : bool) (rc : option Z) : Proc :=
  mkProc capture_cmd t StdinInherit [] false StdoutPIPE opened rc.

(** [world_convert_fails] after a run of the script on [inv_ok]. *)
Definition world_after_failed_write : World :=
  print_stderr (Traceback TypeError)
    (set_files (<["out.eps" := []]> old_files)
       (set_procs [capture_proc capture_ok false (Some 0%Z);
                   convert_proc convert_failing false (Some 1%Z);
                   potrace_proc potrace_failing 1 false (Some 2%Z)]
          world_convert_fails)).

(** The world with the capture command resolving to [t]. *)
Definition with_capture (t : Tool) (w : World) : World :=
  mkWorld (<[capture_cmd := t]> (installed w)) (tty_in w) (procs w)
          (files w) (stdout_log w) (stderr_log w).

(** The exit status of a run, if it ends. *)
Definition exit_status (t : Termination) : option Z :=
  match t with
  | Exit st _ => Some st
  | NoExit _ => None
  end.

(** The script has waited for the child. *)
Definition waited (p : Proc) : Prop := is_Some (p_returncode p).

(** The script has put nothing into the child's stdin and has not
    closed it. *)
Definition stdin_untouched (p : Proc) : Prop :=
  p_stdin_buf p = [] ∧ p_stdin_closed p = false.

(** [world_convert_fails] after a call of [jpegToEPS]. *)
Definition world_after_failed_convert : World :=
  set_procs [convert_proc convert_failing false (Some 1%Z);
             potrace_proc potrace_failing 0 false (Some 2%Z)]
    world_convert_fails.

(** What the two children of [jpegToEPS] come to.  The conversion child
    has a PIPE stdin that the script neither writes nor closes: it ends
    only if it does not wait for its input.  The tracing child reads what
    the conversion child wrote. *)
Definition convert_result (tc : Tool) : option (bytes * Z) :=
  match tc with
  | Source o st => Some (o, st)
  | Filter _ => None
  end.

Definition potrace_result (tp : Tool) (rc : option (bytes * Z))
    : option (bytes * Z) :=
  match tp with
  | Source o st => Some (o, st)
  | Filter f =>
      match rc with
      | Some (o, _) => Some (f o)
      | None => None
      end
  end.

(** * Properties *)

(** ** The process table *)

Section ProcessTable.
Variable tty : bytes.

Lemma outputs_snoc (ps : list Proc) (p : Proc) :
  outputs tty (ps ++ [p])
  = outputs tty ps ++ [run_proc tty (outputs tty ps) p].
Proof. unfold outputs. by rewrite fold_left_app. Qed.

Lemma length_outputs (ps : list Proc) :
  length (outputs tty ps) = length ps.
Proof.
  induction ps as [|p ps IH] using rev_ind; [done|].
  rewrite outputs_snoc, !length_app, IH. done.
Qed.

Lemma outputs_last (ps : list Proc) (p : Proc) :
  outputs tty (ps ++ [p]) !! length ps
  = Some (run_proc tty (outputs tty ps) p).
Proof.
  rewrite outputs_snoc. apply list_lookup_middle.
  by rewrite length_outputs.
Qed.

Lemma outputs_two (ps : list Proc) (p q : Proc) :
  outputs tty (ps ++ [p; q])
  = outputs tty ps
    ++ [run_proc tty (outputs tty ps) p;
        run_proc tty (outputs tty (ps ++ [p])) q].
Proof.
  change (ps ++ [p; q]) with (ps ++ [p] ++ [q]).
  rewrite (assoc (++)), outputs_snoc, outputs_snoc, <- (assoc (++)).
  done.
Qed.

End ProcessTable.

Lemma lookup_two_0 {A} (l : list A) (a b : A) :
  (l ++ [a; b]) !! length l = Some a.
Proof. by apply list_lookup_middle. Qed.

Lemma lookup_two_1 {A} (l : list A) (a b : A) :
  (l ++ [a; b]) !! S (length l) = Some b.
Proof.
  change (l ++ [a; b]) with (l ++ [a] ++ [b]). rewrite (assoc (++)).
  apply list_lookup_middle. rewrite length_app. simpl. lia.
Qed.

Lemma insert_two_0 {A} (l : list A) (a b x : A) :
  <[length l := x]> (l ++ [a; b]) = l ++ [x; b].
Proof.
  rewrite insert_app_r_alt by lia. by rewrite Nat.sub_diag.
Qed.

Lemma insert_two_1 {A} (l : list A) (a b x : A) :
  <[S (length l) := x]> (l ++ [a; b]) = l ++ [a; x].
Proof.
  rewrite insert_app_r_alt by lia.
  replace (S (length l) - length l)%nat with 1%nat by lia. done.
Qed.

Lemma insert_snoc {A} (l : list A) (a x : A) :
  <[length l := x]> (l ++ [a]) = l ++ [x].
Proof.
  rewrite insert_app_r_alt by lia. by rewrite Nat.sub_diag.
Qed.

Lemma length_snoc {A} (l : list A) (a : A) :
  length (l ++ [a]) = S (length l).
Proof. rewrite length_app. simpl. lia. Qed.

(** ** Stepping through the library calls *)

Lemma bind_eq {A B} (m : Py A) (k : A → Py B) (w : World) :
  (m ≫= k) w
  = match m w with
    | Returned a w' => k a w'
    | Raised e w' => Raised e w'
    | Hung w' => Hung w'
    end.
Proof. reflexivity. Qed.

Lemma Popen_plain (cmd : string) (sout : stdout_spec) (w : World) :
  Popen cmd StdinPIPE sout w
  = match installed w !! cmd with
    | Some t =>
        Returned (length (procs w))
          (set_procs
             (procs w ++ [mkProc cmd t StdinPIPE [] false sout true None]) w)
    | None => Raised FileNotFoundError w
    end.
Proof. reflexivity. Qed.

Lemma Popen_inherit (cmd : string) (sout : stdout_spec) (w : World) :
  Popen cmd StdinInherit sout w
  = match installed w !! cmd with
    | Some t =>
        Returned (length (procs w))
          (set_procs
             (procs w ++ [mkProc cmd t StdinInherit [] false sout true None])
             w)
    | None => Raised FileNotFoundError w
    end.
Proof. reflexivity. Qed.

Lemma Popen_from (cmd : string) (q : nat) (p : Proc) (w : World) :
  procs w !! q = Some p →
  p_stdout p = StdoutPIPE →
  p_stdout_open p = true →
  Popen cmd (StdinFrom q) StdoutPIPE w
  = match installed w !! cmd with
    | Some t =>
        Returned (length (procs w))
          (set_procs
             (procs w
              ++ [mkProc cmd t (StdinFrom q) [] false StdoutPIPE true None])
             w)
    | None => Raised FileNotFoundError w
    end.
Proof. intros Hq Hp Ho. unfold Popen. by rewrite Hq, Hp, Ho. Qed.

Lemma set_procs_twice (l1 l2 : list Proc) (w : World) :
  set_procs l1 (set_procs l2 w) = set_procs l1 w.
Proof. reflexivity. Qed.

Lemma close_stdout_eq (pid : nat) (p : Proc) (w : World) :
  procs w !! pid = Some p →
  p_stdout p = StdoutPIPE →
  close_stdout pid w
  = Returned tt
      (set_procs
         (<[pid := mkProc (p_cmd p) (p_tool p) (p_stdin p) (p_stdin_buf p)
                     (p_stdin_closed p) StdoutPIPE false (p_returncode p)]>
            (procs w)) w).
Proof. intros Hp Ho. unfold close_stdout. by rewrite Hp, Ho. Qed.

Lemma proc_result_two_0 (w : World) (l : list Proc) (a b : Proc) :
  proc_result (set_procs (l ++ [a; b]) w) (length l)
  = run_proc (tty_in w) (outputs (tty_in w) l) a.
Proof.
  unfold proc_result. cbn [procs tty_in set_procs].
  rewrite outputs_two, <- (length_outputs (tty_in w) l).
  by rewrite lookup_two_0.
Qed.

Lemma proc_result_two_1 (w : World) (l : list Proc) (a b : Proc) :
  proc_result (set_procs (l ++ [a; b]) w) (S (length l))
  = run_proc (tty_in w) (outputs (tty_in w) (l ++ [a])) b.
Proof.
  unfold proc_result. cbn [procs tty_in set_procs].
  rewrite outputs_two, <- (length_outputs (tty_in w) l).
  by rewrite lookup_two_1.
Qed.

Lemma proc_result_last (w : World) (l : list Proc) (a : Proc) :
  proc_result (set_procs (l ++ [a]) w) (length l)
  = run_proc (tty_in w) (outputs (tty_in w) l) a.
Proof.
  unfold proc_result. cbn [procs tty_in set_procs].
  by rewrite outputs_last.
Qed.

Lemma run_convert_proc tty done (tc : Tool) o rc :
  run_proc tty done (convert_proc tc o rc) = convert_result tc.
Proof. by destruct tc. Qed.

Lemma run_potrace_proc tty (l : list Proc) (tc tp : Tool) o1 rc1 o2 rc2 :
  run_proc tty (outputs tty (l ++ [convert_proc tc o1 rc1]))
    (potrace_proc tp (length l) o2 rc2)
  = potrace_result tp (convert_result tc).
Proof.
  unfold run_proc at 1. cbn [p_tool p_stdin potrace_proc].
  rewrite outputs_last, run_convert_proc.
  destruct tp as [o st|f]; [done|]. cbn [potrace_result].
  by destruct (convert_result tc) as [[? ?]|].
Qed.

(** The whole of [jpegToEPS], in any environment. *)
Lemma jpegToEPS_eq (jpg : pyval) (w : World) :
  jpegToEPS jpg w
  = let n := length (procs w) in
    match installed w !! convert_cmd with
    | None => Raised FileNotFoundError w
    | Some tc =>
        match installed w !! potrace_cmd with
        | None =>
            Raised FileNotFoundError
              (set_procs (procs w ++ [convert_proc tc true None]) w)
        | Some tp =>
            match potrace_result tp (convert_result tc) with
            | None =>
                Hung (set_procs
                        (procs w ++ [convert_proc tc false None;
                                     potrace_proc tp n true None]) w)
            | Some (out, st) =>
                match convert_result tc with
                | None =>
                    Hung (set_procs
                            (procs w ++ [convert_proc tc false None;
                                         potrace_proc tp n false (Some st)])
                            w)
                | Some (_, sc) =>
                    Returned (PyBytes out)
                      (set_procs
                         (procs w ++ [convert_proc tc false (Some sc);
                                      potrace_proc tp n false (Some st)]) w)
                end
            end
        end
    end.
Proof.
  unfold jpegToEPS. rewrite bind_eq, Popen_plain.
  destruct (installed w !! convert_cmd) as [tc|]; [|done].
  rewrite bind_eq.
  erewrite Popen_from; [| apply list_lookup_middle; reflexivity | done | done].
  change (installed (set_procs _ w)) with (installed w).
  destruct (installed w !! potrace_cmd) as [tp|]; [|done].
  change (procs (set_procs ?l w)) with l.
  rewrite length_snoc, <- (assoc (++)), set_procs_twice. cbn [app].
  fold (convert_proc tc true None).
  fold (potrace_proc tp (length (procs w)) true None).
  (* convert.stdout.close() *)
  rewrite bind_eq.
  erewrite close_stdout_eq; [| apply lookup_two_0 | done].
  cbn [procs set_procs]. rewrite insert_two_0, set_procs_twice.
  cbn [convert_proc p_cmd p_tool p_stdin p_stdin_buf p_stdin_closed
       p_returncode].
  fold (convert_proc tc false None).
  (* potrace.communicate() *)
  rewrite bind_eq. unfold communicate at 1.
  cbn [procs set_procs]. rewrite lookup_two_1.
  cbn [potrace_proc p_cmd p_tool p_stdin p_stdin_buf p_stdin_closed
       p_returncode p_stdout p_stdout_open].
  rewrite insert_two_1, set_procs_twice.
  fold (potrace_proc tp (length (procs w)) true None).
  rewrite proc_result_two_1, run_potrace_proc.
  destruct (potrace_result tp (convert_result tc)) as [[out st]|]; [|done].
  rewrite insert_two_1, set_procs_twice.
  fold (potrace_proc tp (length (procs w)) false (Some st)).
  (* convert.wait() *)
  rewrite bind_eq. unfold wait at 1.
  cbn [procs set_procs]. rewrite lookup_two_0.
  rewrite proc_result_two_0, run_convert_proc.
  destruct (convert_result tc) as [[oc sc]|]; [|done].
  rewrite insert_two_0, set_procs_twice. done.
Qed.

Lemma run_capture_proc tty done (t : Tool) o rc :
  run_proc tty done (capture_proc t o rc) = Some (feed t tty).
Proof. destruct t as [out st|f]; [done|]. cbn. by destruct (f tty). Qed.

(** The whole of [getCalibratedJPEG], in any environment. *)
Lemma getCalibratedJPEG_eq (w : World) :
  getCalibratedJPEG w
  = match installed w !! capture_cmd with
    | None => Raised (SystemExit build_msg) w
    | Some t =>
        Returned (PyBytes (feed t (tty_in w)).1)
          (set_procs
             (procs w ++ [capture_proc t false (Some (feed t (tty_in w)).2)])
             w)
    end.
Proof.
  unfold getCalibratedJPEG. rewrite bind_eq.
  unfold try_except_FileNotFoundError. rewrite bind_eq, Popen_inherit.
  destruct (installed w !! capture_cmd) as [t|]; [|done].
  fold (capture_proc t true None).
  rewrite bind_eq. unfold communicate at 1.
  cbn [procs set_procs].
  rewrite list_lookup_middle by done.
  cbn [capture_proc p_cmd p_tool p_stdin p_stdin_buf p_stdin_closed
       p_returncode p_stdout p_stdout_open].
  rewrite insert_snoc, set_procs_twice.
  fold (capture_proc t true None).
  rewrite proc_result_last, run_capture_proc.
  destruct (feed t (tty_in w)) as [out st].
  by rewrite insert_snoc.
Qed.

(** [getEPSDrawing] runs [getCalibratedJPEG] and hands what it returned,
    and the world it left, to [jpegToEPS]. *)
Lemma getEPSDrawing_eq (w : World) :
  getEPSDrawing w
  = match getCalibratedJPEG w with
    | Returned jpeg_data w1 => jpegToEPS jpeg_data w1
    | Raised e w1 => Raised e w1
    | Hung w1 => Hung w1
    end.
Proof.
  unfold getEPSDrawing. rewrite bind_eq.
  destruct (getCalibratedJPEG w) as [jpeg w1|e w1|w1]; [|done|done].
  rewrite bind_eq. by destruct (jpegToEPS jpeg w1).
Qed.

(** [main] with the argument missing. *)
Lemma main_short (a0 : string) (w : World) :
  main [a0] w = Raised (SystemExit ("Usage: " +:+ a0 +:+ " OUTPUT_FILENAME.eps.")) w.
Proof. reflexivity. Qed.

(** [main] with the argument present: only [argv[1]] is looked at. *)
Lemma main_long (a0 a1 : string) (rest : list string) (w : World) :
  main (a0 :: a1 :: rest) w
  = match getEPSDrawing w with
    | Returned eps_data w1 =>
        fh_write a1 eps_data (set_files (<[a1 := []]> (files w1)) w1)
    | Raised e w1 => Raised e w1
    | Hung w1 => Hung w1
    end.
Proof.
  unfold main.
  rewrite bool_decide_eq_false_2 by (cbn [length]; lia).
  rewrite bind_eq. cbv beta iota delta [mret Py_ret].
  rewrite bind_eq.
  destruct (getEPSDrawing w) as [eps w1|e w1|w1]; [|done|done].
  reflexivity.
Qed.

(** ** What never touches the file system *)

Create HintDb keeps discriminated.

Lemma keeps_files_bind {A B} (m : Py A) (k : A → Py B) :
  keeps_files m → (∀ a, keeps_files (k a)) → keeps_files (m ≫= k).
Proof.
  intros Hm Hk w. rewrite bind_eq. specialize (Hm w).
  destruct (m w) as [a w1|e w1|w1]; cbn [final_world] in *; [|done|done].
  by rewrite Hk.
Qed.

Lemma keeps_files_ret {A} (a : A) : keeps_files (mret a).
Proof. by intros w. Qed.

Lemma keeps_files_sys_exit {A} (msg : string) : keeps_files (@sys_exit A msg).
Proof. by intros w. Qed.

Lemma keeps_files_Popen cmd sin sout : keeps_files (Popen cmd sin sout).
Proof. intros w. unfold Popen. by repeat case_match. Qed.

Lemma keeps_files_close_stdout pid : keeps_files (close_stdout pid).
Proof. intros w. unfold close_stdout. by repeat case_match. Qed.

Lemma keeps_files_wait pid : keeps_files (wait pid).
Proof. intros w. unfold wait. by repeat case_match. Qed.

Lemma keeps_files_communicate pid : keeps_files (communicate pid).
Proof. intros w. unfold communicate. by repeat case_match. Qed.

Lemma keeps_files_try {A} (body handler : Py A) :
  keeps_files body → keeps_files handler →
  keeps_files (try_except_FileNotFoundError body handler).
Proof.
  intros Hb Hh w. unfold try_except_FileNotFoundError. specialize (Hb w).
  destruct (body w) as [a w1|e w1|w1]; [done| |done].
  destruct e; try done. cbn [final_world] in Hb. by rewrite Hh.
Qed.

#[local] Hint Resolve keeps_files_ret keeps_files_sys_exit keeps_files_Popen
  keeps_files_close_stdout keeps_files_wait keeps_files_communicate : keeps.

Ltac keeps_files_step :=
  first [ apply keeps_files_bind; [|intros ?]
        | apply keeps_files_try
        | solve [auto with keeps] ].

Lemma keeps_files_getCalibratedJPEG : keeps_files getCalibratedJPEG.
Proof. unfold getCalibratedJPEG. repeat keeps_files_step. Qed.

Lemma keeps_files_jpegToEPS jpg : keeps_files (jpegToEPS jpg).
Proof. unfold jpegToEPS. repeat keeps_files_step. Qed.

Lemma keeps_files_getEPSDrawing : keeps_files getEPSDrawing.
Proof.
  unfold getEPSDrawing.
  repeat first [ apply keeps_files_getCalibratedJPEG
               | apply keeps_files_jpegToEPS
               | keeps_files_step ].
Qed.

(** ** What the pipeline can return *)

Lemma jpegToEPS_returns_bytes jpg w v w' :
  jpegToEPS jpg w = Returned v w' → ∃ b, v = PyBytes b.
Proof.
  rewrite jpegToEPS_eq. cbv zeta. intros H.
  repeat case_match; simplify_eq. eauto.
Qed.

Lemma getEPSDrawing_returns_bytes w v w' :
  getEPSDrawing w = Returned v w' → ∃ b, v = PyBytes b.
Proof.
  rewrite getEPSDrawing_eq.
  destruct (getCalibratedJPEG w) as [jpeg w1|e w1|w1]; [|done|done].
  apply jpegToEPS_returns_bytes.
Qed.

(** With [convert] installed as a filter, the call never comes back. *)
Lemma jpegToEPS_hangs jpg w f tp :
  installed w !! convert_cmd = Some (Filter f) →
  installed w !! potrace_cmd = Some tp →
  ∃ w', jpegToEPS jpg w = Hung w'.
Proof.
  intros Hc Hp. rewrite jpegToEPS_eq, Hc, Hp. cbv zeta.
  cbn [convert_result].
  destruct (potrace_result tp None) as [[out st]|]; eauto.
Qed.

(** No run of the script ends with status 0. *)
Lemma run_script_never_succeeds inv w w' : run_script inv w ≠ Exit 0 w'.
Proof.
  destruct inv as [a0 [|a1 rest]]; unfold run_script, sys_argv;
    cbn [script args].
  - by rewrite main_short.
  - rewrite main_long.
    destruct (getEPSDrawing w) as [eps w1|e w1|w1] eqn:E.
    + apply getEPSDrawing_returns_bytes in E as [b ->]. done.
    + by destruct e.
    + done.
Qed.

(** The call on the sample picture, everything installed. *)
Lemma jpegToEPS_sample_run :
  jpegToEPS (PyBytes jpeg_sample) world_ok
  = Hung (set_procs [convert_proc convert_ok false None;
                     potrace_proc potrace_ok 0 true None] world_ok).
Proof. by vm_compute. Qed.

(** The capture tool not built: the pipeline ends in [sys.exit]. *)
Lemma getEPSDrawing_no_capture (w : World) :
  installed w !! capture_cmd = None →
  getEPSDrawing w = Raised (SystemExit build_msg) w.
Proof. intros Hc. by rewrite getEPSDrawing_eq, getCalibratedJPEG_eq, Hc. Qed.

(** A run in which the pipeline does not return its result leaves the
    file system as it was. *)
Lemma run_script_keeps_files (inv : Invocation) (w : World) :
  (∀ eps_data w1, getEPSDrawing w ≠ Returned eps_data w1) →
  files (term_world (run_script inv w)) = files w.
Proof.
  destruct inv as [a0 [|a1 rest]]; intros Hnot; unfold run_script, sys_argv;
    cbn [script args].
  - by rewrite main_short.
  - rewrite main_long. pose proof (keeps_files_getEPSDrawing w) as Hk.
    destruct (getEPSDrawing w) as [eps w1|e w1|w1]; cbn [final_world] in Hk.
    + by destruct (Hnot eps w1).
    + by destruct e.
    + done.
Qed.

(** * The claims *)

(** C1 (fails on the code).  [jpegToEPS] is documented to convert the
    JPEG data it is given, so it should return what the tracer makes of
    the converted picture.  The code never uses [jpg_data]: with
    [convert] and [potrace] installed as the filters they are, the call
    on a sample picture hangs with both children spawned and nothing
    written to the conversion child; and in every environment the
    outcome is the same for any two inputs. *)
Theorem jpegToEPS_discards_jpg_data :
  jpegToEPS (PyBytes jpeg_sample) world_ok
  = Hung (set_procs [convert_proc convert_ok false None;
                     potrace_proc potrace_ok 0 true None] world_ok)
  ∧ (feed potrace_ok (feed convert_ok jpeg_sample).1).1
    = eps_of (pnm_of jpeg_sample)
  ∧ (∀ d1 d2 w, jpegToEPS d1 w = jpegToEPS d2 w).
Proof. split; [|split]; [apply jpegToEPS_sample_run | done | done]. Qed.

(** C2 (fails on the code).  The raster bytes should be written to the
    conversion child's stdin and that stream closed, so that the child
    sees end-of-file and the call terminates.  The code closes the
    child's stdout instead: when the call on the sample picture stops
    making progress, the child's stdin PIPE is still open and empty, the
    child has no result, and the call has not returned. *)
Theorem jpegToEPS_never_feeds_convert :
  let o := jpegToEPS (PyBytes jpeg_sample) world_ok in
  o = Hung (final_world o)
  ∧ (∃ p, procs (final_world o) !! 0%nat = Some p
          ∧ p_cmd p = convert_cmd
          ∧ p_stdin p = StdinPIPE
          ∧ p_stdin_buf p = []
          ∧ p_stdin_closed p = false
          ∧ p_stdout_open p = false)
  ∧ proc_result (final_world o) 0%nat = None.
Proof.
  cbv zeta. rewrite jpegToEPS_sample_run.
  cbn [final_world]. split; [done|]. split; [|by vm_compute].
  eexists. split; [reflexivity|]. done.
Qed.

(** C3.  When the output filename is missing from the command line
    ([sys.argv] has fewer than two entries) the script exits with status
    1 after printing the usage message on stderr; nothing else has
    changed in the world, so none of the three tools was started. *)
Theorem missing_argument_usage_exit (inv : Invocation) (w : World) :
  (length (sys_argv inv) < 2)%nat →
  run_script inv w
  = Exit 1 (print_stderr
              (Message ("Usage: " +:+ script inv +:+ " OUTPUT_FILENAME.eps."))
              w)
  ∧ procs (term_world (run_script inv w)) = procs w.
Proof.
  destruct inv as [a0 [|a1 rest]]; cbn [sys_argv script args length];
    [intros _ | lia].
  unfold run_script, sys_argv. cbn [script args]. by rewrite main_short.
Qed.

Lemma missing_argument_usage_exit_witness :
  (length (sys_argv inv_noarg) < 2)%nat
  ∧ run_script inv_noarg world_ok
    = Exit 1 (print_stderr
                (Message "Usage: drawingcnc.py OUTPUT_FILENAME.eps.")
                world_ok).
Proof.
  split; [cbn; lia|].
  apply (missing_argument_usage_exit inv_noarg world_ok). cbn. lia.
Defined.

(** C4.  When the capture tool cannot be found, the pipeline stops in
    [getCalibratedJPEG] with [sys.exit] and the build message, the world
    untouched (neither [convert] nor [potrace] was started); the script,
    given its argument, then exits with status 1 and that message on
    stderr. *)
Theorem missing_capture_tool_exit (w : World) :
  installed w !! capture_cmd = None →
  getEPSDrawing w
  = Raised (SystemExit
              "Please build the take_calibrated_picture script first.") w
  ∧ (∀ inv, (2 ≤ length (sys_argv inv))%nat →
       run_script inv w
       = Exit 1 (print_stderr
                   (Message
                      "Please build the take_calibrated_picture script first.")
                   w)).
Proof.
  intros Hc.
  pose proof (getEPSDrawing_no_capture w Hc) as HE.
  split; [exact HE|].
  intros [a0 [|a1 rest]]; cbn [sys_argv script args length]; [lia|intros _].
  unfold run_script, sys_argv. cbn [script args].
  by rewrite main_long, HE.
Qed.

Lemma missing_capture_tool_exit_witness :
  installed world_no_capture !! capture_cmd = None
  ∧ (2 ≤ length (sys_argv inv_ok))%nat
  ∧ run_script inv_ok world_no_capture
    = Exit 1 (print_stderr
                (Message
                   "Please build the take_calibrated_picture script first.")
                world_no_capture).
Proof.
  split; [by vm_compute|]. split; [cbn; lia|].
  apply (missing_capture_tool_exit world_no_capture); [by vm_compute|].
  cbn. lia.
Defined.

(** C5 (fails on the code).  A run that gets its picture traced should
    write the tracer's bytes to the file named by the first argument.
    The script opens that file in text mode and hands [write] a [bytes]
    object: in the run below the pipeline returns the tracer's output,
    and the script ends with status 1 and a [TypeError] traceback,
    leaving the output file truncated to nothing. *)
Theorem main_write_raises_TypeError :
  getEPSDrawing world_convert_fails
  = Returned (PyBytes (eps_of []))
      (set_procs [capture_proc capture_ok false (Some 0%Z);
                  convert_proc convert_failing false (Some 1%Z);
                  potrace_proc potrace_failing 1 false (Some 2%Z)]
         world_convert_fails)
  ∧ run_script inv_ok world_convert_fails
    = Exit 1
        (print_stderr (Traceback TypeError)
           (set_files (<["out.eps" := []]> old_files)
              (set_procs [capture_proc capture_ok false (Some 0%Z);
                          convert_proc convert_failing false (Some 1%Z);
                          potrace_proc potrace_failing 1 false (Some 2%Z)]
                 world_convert_fails)))
  ∧ files (term_world (run_script inv_ok world_convert_fails)) !! "out.eps"
    = Some []
  ∧ eps_of [] ≠ [].
Proof. repeat split; by vm_compute. Qed.

(** C6.  [getEPSDrawing] is [getCalibratedJPEG] followed by [jpegToEPS]
    on what it returned, and nothing more; and when the capture step
    returns, the only thing it has added to the world is the capture
    child, finished and waited for, with the returned bytes being that
    child's output: the conversion children are spawned after that. *)
Theorem getEPSDrawing_is_capture_then_trace (w : World) :
  getEPSDrawing w
  = match getCalibratedJPEG w with
    | Returned jpeg_data w1 => jpegToEPS jpeg_data w1
    | Raised e w1 => Raised e w1
    | Hung w1 => Hung w1
    end
  ∧ (∀ jpeg_data w1,
       getCalibratedJPEG w = Returned jpeg_data w1 →
       ∃ p out st,
         w1 = set_procs (procs w ++ [p]) w
         ∧ p_cmd p = capture_cmd
         ∧ p_returncode p = Some st
         ∧ proc_result w1 (length (procs w)) = Some (out, st)
         ∧ jpeg_data = PyBytes out).
Proof.
  split; [apply getEPSDrawing_eq|].
  intros jpeg w1. rewrite getCalibratedJPEG_eq.
  destruct (installed w !! capture_cmd) as [t|]; [|done].
  intros [= <- <-].
  eexists _, _, _. split; [reflexivity|].
  split; [done|]. split; [done|]. split; [|done].
  rewrite proc_result_last, run_capture_proc.
  by destruct (feed t (tty_in w)).
Qed.

Lemma getEPSDrawing_is_capture_then_trace_witness :
  getCalibratedJPEG world_ok
  = Returned (PyBytes jpeg_sample)
      (set_procs [capture_proc capture_ok false (Some 0%Z)] world_ok)
  ∧ ∃ p out st,
      set_procs [capture_proc capture_ok false (Some 0%Z)] world_ok
      = set_procs (procs world_ok ++ [p]) world_ok
      ∧ p_cmd p = capture_cmd
      ∧ p_returncode p = Some st
      ∧ proc_result
          (set_procs [capture_proc capture_ok false (Some 0%Z)] world_ok)
          (length (procs world_ok)) = Some (out, st)
      ∧ PyBytes jpeg_sample = PyBytes out.
Proof.
  split; [by vm_compute|].
  apply (proj2 (getEPSDrawing_is_capture_then_trace world_ok)).
  by vm_compute.
Defined.

(** C7.  Whenever [jpegToEPS] returns, the two children it spawned, the
    conversion child and the tracing child, have both terminated and
    have both been waited for: each has its exit status recorded in
    [returncode]. *)
Theorem jpegToEPS_returns_after_both_waited
    (jpg out : pyval) (w w' : World) :
  jpegToEPS jpg w = Returned out w' →
  ∃ pc pp oc sc op sp,
    procs w' = procs w ++ [pc; pp]
    ∧ p_cmd pc = convert_cmd
    ∧ p_cmd pp = potrace_cmd
    ∧ proc_result w' (length (procs w)) = Some (oc, sc)
    ∧ proc_result w' (S (length (procs w))) = Some (op, sp)
    ∧ p_returncode pc = Some sc
    ∧ p_returncode pp = Some sp.
Proof.
  rewrite jpegToEPS_eq. cbv zeta.
  destruct (installed w !! convert_cmd) as [tc|]; [|done].
  destruct (installed w !! potrace_cmd) as [tp|]; [|done].
  destruct (potrace_result tp (convert_result tc)) as [[op sp]|] eqn:Ep;
    [|done].
  destruct (convert_result tc) as [[oc sc]|] eqn:Ec; [|done].
  intros [= <- <-].
  eexists _, _, oc, sc, op, sp.
  split; [reflexivity|]. split; [done|]. split; [done|].
  rewrite proc_result_two_0, proc_result_two_1.
  rewrite run_convert_proc, run_potrace_proc, Ec, Ep. done.
Qed.

Lemma jpegToEPS_returns_after_both_waited_witness :
  jpegToEPS (PyBytes jpeg_sample) world_convert_fails
  = Returned (PyBytes (eps_of [])) world_after_failed_convert
  ∧ ∃ pc pp oc sc op sp,
      procs world_after_failed_convert
      = procs world_convert_fails ++ [pc; pp]
      ∧ p_cmd pc = convert_cmd
      ∧ p_cmd pp = potrace_cmd
      ∧ proc_result world_after_failed_convert
          (length (procs world_convert_fails)) = Some (oc, sc)
      ∧ proc_result world_after_failed_convert
          (S (length (procs world_convert_fails))) = Some (op, sp)
      ∧ p_returncode pc = Some sc
      ∧ p_returncode pp = Some sp.
Proof.
  split; [by vm_compute|].
  apply (jpegToEPS_returns_after_both_waited (PyBytes jpeg_sample)
           (PyBytes (eps_of [])) world_convert_fails
           world_after_failed_convert).
  by vm_compute.
Defined.

(** C8.  The only [sys.exit] of the pipeline is the one for the missing
    capture tool: it carries the build message and is raised in the
    capture step, before anything was spawned.  The exit statuses of the
    conversion and tracing children are not looked at: when [convert]
    ends with any status [st1] and output [o1], the call returns
    whatever [potrace] writes on [o1], whatever status [potrace] ends
    with, and only records the two statuses; and every value the call
    returns is the output of the tracing child. *)
Theorem only_ToolMissing_is_handled :
  (∀ w msg w',
     getEPSDrawing w = Raised (SystemExit msg) w' →
     msg = build_msg ∧ installed w !! capture_cmd = None ∧ w' = w)
  ∧ (∀ jpg w o1 st1 tp,
       installed w !! convert_cmd = Some (Source o1 st1) →
       installed w !! potrace_cmd = Some tp →
       jpegToEPS jpg w
       = Returned (PyBytes (feed tp o1).1)
           (set_procs
              (procs w
               ++ [convert_proc (Source o1 st1) false (Some st1);
                   potrace_proc tp (length (procs w)) false
                     (Some (feed tp o1).2)]) w))
  ∧ (∀ jpg w out w',
       jpegToEPS jpg w = Returned out w' →
       ∃ o st,
         proc_result w' (S (length (procs w))) = Some (o, st)
         ∧ out = PyBytes o).
Proof.
  split; [|split].
  - intros w msg w'. rewrite getEPSDrawing_eq, getCalibratedJPEG_eq.
    destruct (installed w !! capture_cmd) as [t|].
    + rewrite jpegToEPS_eq. cbv zeta. intros H.
      repeat case_match; simplify_eq.
    + by intros [= <- <-].
  - intros jpg w o1 st1 tp Hc Hp.
    rewrite jpegToEPS_eq, Hc, Hp. cbv zeta. cbn [convert_result].
    destruct tp as [o2 st2|f]; [done|].
    cbn [potrace_result feed]. by destruct (f o1).
  - intros jpg w out w'. rewrite jpegToEPS_eq. cbv zeta.
    destruct (installed w !! convert_cmd) as [tc|]; [|done].
    destruct (installed w !! potrace_cmd) as [tp|]; [|done].
    destruct (potrace_result tp (convert_result tc)) as [[op sp]|] eqn:Ep;
      [|done].
    destruct (convert_result tc) as [[oc sc]|] eqn:Ec; [|done].
    intros [= <- <-]. exists op, sp. split; [|done].
    by rewrite proc_result_two_1, run_potrace_proc, Ec, Ep.
Qed.

Lemma only_ToolMissing_is_handled_witness :
  (getEPSDrawing world_no_capture
   = Raised (SystemExit build_msg) world_no_capture
   ∧ build_msg = build_msg
   ∧ installed world_no_capture !! capture_cmd = None
   ∧ world_no_capture = world_no_capture)
  ∧ (installed world_convert_fails !! convert_cmd = Some (Source [] 1%Z)
     ∧ installed world_convert_fails !! potrace_cmd = Some potrace_failing
     ∧ jpegToEPS (PyBytes jpeg_sample) world_convert_fails
       = Returned (PyBytes (feed potrace_failing []).1)
           (set_procs
              (procs world_convert_fails
               ++ [convert_proc (Source [] 1%Z) false (Some 1%Z);
                   potrace_proc potrace_failing
                     (length (procs world_convert_fails)) false
                     (Some (feed potrace_failing []).2)])
              world_convert_fails))
  ∧ (jpegToEPS (PyBytes jpeg_sample) world_convert_fails
     = Returned (PyBytes (eps_of [])) world_after_failed_convert
     ∧ ∃ o st,
         proc_result world_after_failed_convert
           (S (length (procs world_convert_fails))) = Some (o, st)
         ∧ PyBytes (eps_of []) = PyBytes o).
Proof.
  split; [|split].
  - split; [by vm_compute|].
    apply (proj1 only_ToolMissing_is_handled world_no_capture build_msg
             world_no_capture).
    by vm_compute.
  - split; [by vm_compute|]. split; [by vm_compute|].
    apply (proj1 (proj2 only_ToolMissing_is_handled) (PyBytes jpeg_sample)
             world_convert_fails [] 1%Z potrace_failing); by vm_compute.
  - split; [by vm_compute|].
    apply (proj2 (proj2 only_ToolMissing_is_handled) (PyBytes jpeg_sample)
             world_convert_fails (PyBytes (eps_of []))
             world_after_failed_convert).
    by vm_compute.
Defined.

(** C9.  On both error exits, the missing argument and the missing
    capture tool, the script ends with status 1 and the file system is
    as it was.  More generally the file system can only differ after a
    run in which the whole pipeline has returned its result: the output
    file is opened after that and not before. *)
Theorem error_exits_leave_files_alone :
  (∀ inv w,
     (length (sys_argv inv) < 2)%nat ∨ installed w !! capture_cmd = None →
     (∃ w', run_script inv w = Exit 1 w')
     ∧ files (term_world (run_script inv w)) = files w)
  ∧ (∀ inv w,
       files (term_world (run_script inv w)) ≠ files w →
       ∃ eps_data w1, getEPSDrawing w = Returned eps_data w1).
Proof.
  split.
  - intros [a0 [|a1 rest]] w Herr; unfold run_script, sys_argv in *;
      cbn [script args length] in *.
    + rewrite main_short. eauto.
    + destruct Herr as [Hlen|Hc]; [lia|].
      rewrite main_long, (getEPSDrawing_no_capture w Hc). eauto.
  - intros inv w Hdiff.
    destruct (getEPSDrawing w) as [eps w1|e w1|w1] eqn:E; [eauto|..];
      destruct Hdiff; apply run_script_keeps_files; by rewrite E.
Qed.

Lemma error_exits_leave_files_alone_witness :
  ((length (sys_argv inv_noarg) < 2)%nat
   ∧ files (term_world (run_script inv_noarg world_ok)) = files world_ok)
  ∧ (installed world_no_capture !! capture_cmd = None
     ∧ files (term_world (run_script inv_ok world_no_capture))
       = files world_no_capture)
  ∧ (files (term_world (run_script inv_ok world_convert_fails))
     ≠ files world_convert_fails
     ∧ ∃ eps_data w1,
         getEPSDrawing world_convert_fails = Returned eps_data w1).
Proof.
  split; [|split].
  - split; [cbn; lia|].
    apply (proj1 error_exits_leave_files_alone inv_noarg world_ok).
    left. cbn. lia.
  - split; [by vm_compute|].
    apply (proj1 error_exits_leave_files_alone inv_ok world_no_capture).
    right. by vm_compute.
  - assert (files (term_world (run_script inv_ok world_convert_fails))
            ≠ files world_convert_fails) as Hdiff by (by vm_compute).
    split; [exact Hdiff|].
    exact (proj2 error_exits_leave_files_alone inv_ok world_convert_fails
             Hdiff).
Defined.

(** C10.  With the output filename present, the run depends on the
    command line through [sys.argv[1]] only: two command lines with the
    same first argument give the same run in the same environment,
    whatever follows the first argument (and whatever the script was
    called as). *)
Theorem extra_arguments_ignored (inv1 inv2 : Invocation) (w : World) :
  (2 ≤ length (sys_argv inv1))%nat →
  (2 ≤ length (sys_argv inv2))%nat →
  sys_argv inv1 !! 1%nat = sys_argv inv2 !! 1%nat →
  run_script inv1 w = run_script inv2 w.
Proof.
  destruct inv1 as [a0 [|a1 r1]], inv2 as [b0 [|b1 r2]];
    cbn [sys_argv script args length]; try lia.
  intros _ _ [= ->]. unfold run_script, sys_argv. cbn [script args].
  by rewrite !main_long.
Qed.

Lemma extra_arguments_ignored_witness :
  (2 ≤ length (sys_argv inv_extra1))%nat
  ∧ (2 ≤ length (sys_argv inv_extra2))%nat
  ∧ sys_argv inv_extra1 !! 1%nat = sys_argv inv_extra2 !! 1%nat
  ∧ args inv_extra1 ≠ args inv_extra2
  ∧ run_script inv_extra1 world_convert_fails
    = run_script inv_extra2 world_convert_fails.
Proof.
  split; [cbn; lia|]. split; [cbn; lia|]. split; [reflexivity|].
  split; [discriminate|].
  apply (extra_arguments_ignored inv_extra1 inv_extra2 world_convert_fails);
    [cbn; lia | cbn; lia | reflexivity].
Defined.

(** * Further properties of the script *)

Lemma potrace_result_fed (tp : Tool) (o : bytes) (st : Z) :
  potrace_result tp (Some (o, st)) = Some (feed tp o).
Proof. by destruct tp. Qed.

(** The pipeline with the capture tool built: the capture child is
    added, finished, and [jpegToEPS] runs in that world. *)
Lemma getEPSDrawing_captured (w : World) (t : Tool) :
  installed w !! capture_cmd = Some t →
  getEPSDrawing w
  = jpegToEPS (PyBytes (feed t (tty_in w)).1)
      (set_procs
         (procs w ++ [capture_proc t false (Some (feed t (tty_in w)).2)]) w).
Proof. intros Hc. by rewrite getEPSDrawing_eq, getCalibratedJPEG_eq, Hc. Qed.

(** The script with its argument, once the pipeline has returned. *)
Lemma run_script_after_pipeline a0 a1 rest w eps_data w1 :
  getEPSDrawing w = Returned eps_data w1 →
  run_script (mkInvocation a0 (a1 :: rest)) w
  = Exit 1 (print_stderr (Traceback TypeError)
              (set_files (<[a1 := []]> (files w1)) w1)).
Proof.
  intros E. unfold run_script, sys_argv. cbn [script args].
  rewrite main_long, E.
  by apply getEPSDrawing_returns_bytes in E as [b ->].
Qed.

(** The script with its argument, when the pipeline raised. *)
Lemma run_script_pipeline_raised a0 a1 rest w e w1 :
  getEPSDrawing w = Raised e w1 →
  run_script (mkInvocation a0 (a1 :: rest)) w
  = Exit 1 (print_stderr
              match e with
              | SystemExit msg => Message msg
              | _ => Traceback e
              end w1).
Proof.
  intros E. unfold run_script, sys_argv. cbn [script args].
  rewrite main_long, E. by destruct e.
Qed.

Lemma run_script_pipeline_hung a0 a1 rest w w1 :
  getEPSDrawing w = Hung w1 →
  run_script (mkInvocation a0 (a1 :: rest)) w = NoExit w1.
Proof.
  intros E. unfold run_script, sys_argv. cbn [script args].
  by rewrite main_long, E.
Qed.

(** However the pipeline ends, all it has done to the world is to add
    children to the process table: the capture child, then the
    conversion child, then the tracing child, as far as it got. *)
Lemma getEPSDrawing_world (w : World) :
  ∃ new,
    final_world (getEPSDrawing w) = set_procs (procs w ++ new) w
    ∧ map p_cmd new `prefix_of` [capture_cmd; convert_cmd; potrace_cmd].
Proof.
  assert (∀ (l : list Proc) c a b, (l ++ [c]) ++ [a; b] = l ++ [c; a; b])
    as H3 by (intros; by rewrite <- (assoc (++))).
  assert (∀ (l : list Proc) c a, (l ++ [c]) ++ [a] = l ++ [c; a])
    as H2 by (intros; by rewrite <- (assoc (++))).
  rewrite getEPSDrawing_eq, getCalibratedJPEG_eq.
  destruct (installed w !! capture_cmd) as [t|].
  - rewrite jpegToEPS_eq. cbv zeta. cbn [installed procs set_procs].
    destruct (installed w !! convert_cmd) as [tc|].
    + destruct (installed w !! potrace_cmd) as [tp|].
      * destruct (potrace_result tp (convert_result tc)) as [[out st]|];
          [destruct (convert_result tc) as [[oc sc]|]|];
          cbn [final_world]; rewrite H3, set_procs_twice;
          (eexists; split; [reflexivity|by eexists []]).
      * cbn [final_world]. rewrite H2, set_procs_twice.
        eexists; split; [reflexivity|by eexists [_]].
    + cbn [final_world]. eexists; split; [reflexivity|by eexists [_; _]].
  - cbn [final_world]. exists []. rewrite app_nil_r.
    split; [by destruct w|by eexists].
Qed.


(** X1.  With the capture tool built, [getCalibratedJPEG] returns what
    the tool wrote on its stdout, whatever that is and whatever status
    the tool ended with: an empty picture from a tool that failed is
    returned like any other.  The tool's status is recorded in the
    [Popen] object and not looked at. *)
Theorem getCalibratedJPEG_ignores_exit_status (w : World) (t : Tool) :
  installed w !! capture_cmd = Some t →
  getCalibratedJPEG w
  = Returned (PyBytes (feed t (tty_in w)).1)
      (set_procs
         (procs w ++ [capture_proc t false (Some (feed t (tty_in w)).2)]) w).
Proof. intros Hc. by rewrite getCalibratedJPEG_eq, Hc. Qed.

Lemma getCalibratedJPEG_ignores_exit_status_witness :
  installed world_capture_fails !! capture_cmd = Some (Source [] 3%Z)
  ∧ getCalibratedJPEG world_capture_fails
    = Returned (PyBytes [])
        (set_procs [capture_proc (Source [] 3%Z) false (Some 3%Z)]
           world_capture_fails).
Proof.
  split; [by vm_compute|].
  apply (getCalibratedJPEG_ignores_exit_status world_capture_fails
           (Source [] 3%Z)).
  by vm_compute.
Defined.

(** X2.  [jpegToEPS] does not handle a command that cannot be launched.
    With [convert] missing it raises [FileNotFoundError] with nothing
    spawned.  With [convert] present and [potrace] missing it raises
    [FileNotFoundError] after the conversion child was spawned: that
    child is left behind, never waited for, its stdout still open in the
    script. *)
Theorem jpegToEPS_launch_failure (jpg : pyval) (w : World) :
  (installed w !! convert_cmd = None →
   jpegToEPS jpg w = Raised FileNotFoundError w)
  ∧ (∀ tc,
       installed w !! convert_cmd = Some tc →
       installed w !! potrace_cmd = None →
       jpegToEPS jpg w
       = Raised FileNotFoundError
           (set_procs (procs w ++ [convert_proc tc true None]) w)).
Proof.
  split.
  - intros Hc. by rewrite jpegToEPS_eq, Hc.
  - intros tc Hc Hp. by rewrite jpegToEPS_eq, Hc, Hp.
Qed.

Lemma jpegToEPS_launch_failure_witness :
  (installed world_no_convert !! convert_cmd = None
   ∧ jpegToEPS (PyBytes jpeg_sample) world_no_convert
     = Raised FileNotFoundError world_no_convert)
  ∧ (installed world_no_potrace !! convert_cmd = Some convert_ok
     ∧ installed world_no_potrace !! potrace_cmd = None
     ∧ jpegToEPS (PyBytes jpeg_sample) world_no_potrace
       = Raised FileNotFoundError
           (set_procs
              (procs world_no_potrace ++ [convert_proc convert_ok true None])
              world_no_potrace)).
Proof.
  split.
  - split; [by vm_compute|].
    apply (proj1 (jpegToEPS_launch_failure (PyBytes jpeg_sample)
                    world_no_convert)).
    by vm_compute.
  - split; [by vm_compute|]. split; [by vm_compute|].
    apply (proj2 (jpegToEPS_launch_failure (PyBytes jpeg_sample)
                    world_no_potrace) convert_ok); by vm_compute.
Defined.

(** X3.  The build message is for the capture tool only.  With the
    argument given and the capture tool built, a missing [convert] or a
    missing [potrace] ends the script with status 1 and a
    [FileNotFoundError] traceback on stderr; the file system is as it
    was. *)
Theorem missing_converter_is_a_traceback
    (inv : Invocation) (w : World) (t : Tool) :
  (2 ≤ length (sys_argv inv))%nat →
  installed w !! capture_cmd = Some t →
  installed w !! convert_cmd = None ∨ installed w !! potrace_cmd = None →
  ∃ w',
    run_script inv w = Exit 1 w'
    ∧ stderr_log w' = stderr_log w ++ [Traceback FileNotFoundError]
    ∧ files w' = files w.
Proof.
  destruct inv as [a0 [|a1 rest]]; cbn [sys_argv script args length];
    [lia|intros _].
  intros Hcap Hmiss.
  assert (∃ w1, getEPSDrawing w = Raised FileNotFoundError w1
                ∧ stderr_log w1 = stderr_log w ∧ files w1 = files w)
    as (w1 & E & Herr & Hfiles).
  { rewrite (getEPSDrawing_captured w t Hcap), jpegToEPS_eq. cbv zeta.
    cbn [installed procs set_procs].
    destruct (installed w !! convert_cmd) as [tc|] eqn:Hc; [|eauto].
    destruct Hmiss as [?|Hp]; [done|]. rewrite Hp. eauto. }
  eexists. split; [by apply run_script_pipeline_raised|].
  cbn [print_stderr stderr_log files]. by rewrite Herr, Hfiles.
Qed.

Lemma missing_converter_is_a_traceback_witness :
  (2 ≤ length (sys_argv inv_ok))%nat
  ∧ installed world_no_convert !! capture_cmd = Some capture_ok
  ∧ installed world_no_convert !! convert_cmd = None
  ∧ ∃ w',
      run_script inv_ok world_no_convert = Exit 1 w'
      ∧ stderr_log w'
        = stderr_log world_no_convert ++ [Traceback FileNotFoundError]
      ∧ files w' = files world_no_convert.
Proof.
  split; [cbn; lia|]. split; [by vm_compute|]. split; [by vm_compute|].
  apply (missing_converter_is_a_traceback inv_ok world_no_convert capture_ok);
    [cbn; lia | by vm_compute | left; by vm_compute].
Defined.

(** X4.  [jpegToEPS] returns exactly when both commands can be launched
    and [convert] ends without waiting for its input; what it returns
    then is [potrace]'s output on what that [convert] wrote. *)
Theorem jpegToEPS_returns_iff (jpg : pyval) (w : World) (out : bytes) :
  (∃ w', jpegToEPS jpg w = Returned (PyBytes out) w')
  ↔ (∃ o st tp,
       installed w !! convert_cmd = Some (Source o st)
       ∧ installed w !! potrace_cmd = Some tp
       ∧ out = (feed tp o).1).
Proof.
  rewrite jpegToEPS_eq. cbv zeta. split.
  - intros [w' H].
    destruct (installed w !! convert_cmd) as [[o st|f]|]; [| |done].
    + destruct (installed w !! potrace_cmd) as [tp|]; [|done].
      cbn [convert_result] in H. rewrite potrace_result_fed in H.
      exists o, st, tp. split; [done|]. split; [done|].
      destruct (feed tp o) as [out' st']. by simplify_eq.
    + destruct (installed w !! potrace_cmd) as [tp|]; [|done].
      cbn [convert_result] in H.
      by destruct (potrace_result tp None) as [[? ?]|].
  - intros (o & st & tp & -> & -> & ->).
    cbn [convert_result]. rewrite potrace_result_fed.
    destruct (feed tp o) as [out' st']. eauto.
Qed.

Lemma jpegToEPS_returns_iff_witness :
  (installed world_convert_fails !! convert_cmd = Some (Source [] 1%Z)
   ∧ installed world_convert_fails !! potrace_cmd = Some potrace_failing
   ∧ eps_of [] = (feed potrace_failing []).1)
  ∧ ∃ w', jpegToEPS (PyBytes jpeg_sample) world_convert_fails
          = Returned (PyBytes (eps_of [])) w'.
Proof.
  assert (installed world_convert_fails !! convert_cmd = Some (Source [] 1%Z)
          ∧ installed world_convert_fails !! potrace_cmd
            = Some potrace_failing
          ∧ eps_of [] = (feed potrace_failing []).1) as H
    by (by vm_compute).
  split; [exact H|].
  apply (proj2 (jpegToEPS_returns_iff (PyBytes jpeg_sample)
                  world_convert_fails (eps_of []))).
  exists [], 1%Z, potrace_failing. exact H.
Defined.



(** The cases of the pipeline, by what the three commands resolve to. *)
Ltac pipeline_cases w :=
  rewrite getEPSDrawing_eq, getCalibratedJPEG_eq;
  destruct (installed w !! capture_cmd) as [?t|] eqn:?Hcap;
  [ rewrite jpegToEPS_eq; cbv zeta; cbn [installed procs set_procs];
    destruct (installed w !! convert_cmd) as [[?oc ?sc|?fc]|] eqn:?Hconv;
    [ destruct (installed w !! potrace_cmd) as [?tp|] eqn:?Hpot;
      [ cbn [convert_result];
        match goal with
        | |- context [potrace_result ?tp (Some (?o, ?s))] =>
            rewrite (potrace_result_fed tp o s);
            destruct (feed tp o) as [?out ?st]
        end
      | ]
    | destruct (installed w !! potrace_cmd) as [[?op ?sp|?fp]|] eqn:?Hpot;
      cbn [convert_result potrace_result]
    | ]
  | ].


(** When the pipeline hangs. *)
Lemma getEPSDrawing_hangs_iff (w : World) :
  (∃ w1, getEPSDrawing w = Hung w1)
  ↔ is_Some (installed w !! capture_cmd)
    ∧ (∃ f, installed w !! convert_cmd = Some (Filter f))
    ∧ is_Some (installed w !! potrace_cmd).
Proof.
  split.
  - intros [w1 H]. revert H. pipeline_cases w; intros H; try done;
      (split; [done|]; split; [by eexists|done]).
  - intros ([t Ht] & [f Hf] & [tp Hp]).
    rewrite (getEPSDrawing_captured w t Ht).
    apply (jpegToEPS_hangs _ _ f tp); cbn [installed set_procs]; done.
Qed.



(** X7.  The script never ends exactly when it is given its argument,
    all three commands can be launched, and [convert] waits for its
    input: nothing else makes a run hang. *)
Theorem run_script_hangs_iff (inv : Invocation) (w : World) :
  (∃ w', run_script inv w = NoExit w')
  ↔ (2 ≤ length (sys_argv inv))%nat
    ∧ is_Some (installed w !! capture_cmd)
    ∧ (∃ f, installed w !! convert_cmd = Some (Filter f))
    ∧ is_Some (installed w !! potrace_cmd).
Proof.
  destruct inv as [a0 [|a1 rest]]; cbn [sys_argv script args length].
  - unfold run_script, sys_argv. cbn [script args]. rewrite main_short.
    split; [by intros [w' ?]|intros [? _]; lia].
  - rewrite <- getEPSDrawing_hangs_iff. split.
    + intros [w' H]. split; [lia|].
      destruct (getEPSDrawing w) as [eps w1|e w1|w1] eqn:E; [| |eauto].
      * by rewrite (run_script_after_pipeline _ _ _ _ _ _ E) in H.
      * by rewrite (run_script_pipeline_raised _ _ _ _ _ _ E) in H.
    + intros [_ [w1 E]]. exists w1. by apply run_script_pipeline_hung.
Qed.

Lemma run_script_hangs_iff_witness :
  ((2 ≤ length (sys_argv inv_ok))%nat
   ∧ is_Some (installed world_convert_filter_potrace_source !! capture_cmd)
   ∧ (∃ f, installed world_convert_filter_potrace_source !! convert_cmd
           = Some (Filter f))
   ∧ is_Some (installed world_convert_filter_potrace_source !! potrace_cmd))
  ∧ ∃ w', run_script inv_ok world_convert_filter_potrace_source = NoExit w'.
Proof.
  assert ((2 ≤ length (sys_argv inv_ok))%nat
          ∧ is_Some (installed world_convert_filter_potrace_source
                     !! capture_cmd)
          ∧ (∃ f, installed world_convert_filter_potrace_source !! convert_cmd
                  = Some (Filter f))
          ∧ is_Some (installed world_convert_filter_potrace_source
                     !! potrace_cmd)) as H.
  { split; [cbn; lia|]. split; [by eexists|]. split; by eexists. }
  split; [exact H|].
  exact (proj2 (run_script_hangs_iff inv_ok
                  world_convert_filter_potrace_source) H).
Defined.

(** X8.  Whatever the command line and the environment, a run starts at
    most three children and in this order: the capture tool, [convert],
    [potrace].  It starts nothing else and changes nothing in the
    children that were there before. *)
Theorem run_script_spawns_in_order (inv : Invocation) (w : World) :
  ∃ new,
    procs (term_world (run_script inv w)) = procs w ++ new
    ∧ map p_cmd new `prefix_of` [capture_cmd; convert_cmd; potrace_cmd].
Proof.
  destruct inv as [a0 [|a1 rest]].
  - exists []. unfold run_script, sys_argv. cbn [script args].
    rewrite main_short. cbn. rewrite app_nil_r. split; [done|by eexists].
  - destruct (getEPSDrawing_world w) as (new & Hw & Hpre).
    exists new. split; [|done].
    destruct (getEPSDrawing w) as [eps w1|e w1|w1] eqn:E;
      cbn [final_world] in Hw.
    + rewrite (run_script_after_pipeline _ _ _ _ _ _ E). by rewrite Hw.
    + rewrite (run_script_pipeline_raised _ _ _ _ _ _ E). by rewrite Hw.
    + rewrite (run_script_pipeline_hung _ _ _ _ _ E). by rewrite Hw.
Qed.

(** X9.  A run that ends leaves no child behind that it has not waited
    for, provided [potrace] can be launched: every child it started has
    its exit status collected.  (With [potrace] missing the conversion
    child is left behind, see X2.) *)
Theorem exit_leaves_no_unwaited_child
    (inv : Invocation) (w w' : World) (st : Z) :
  run_script inv w = Exit st w' →
  is_Some (installed w !! potrace_cmd) →
  ∃ new, procs w' = procs w ++ new ∧ Forall waited new.
Proof.
  destruct inv as [a0 [|a1 rest]].
  - unfold run_script, sys_argv. cbn [script args]. rewrite main_short.
    intros [= <- <-] _. exists []. cbn. by rewrite app_nil_r.
  - intros H [tp' Hp'].
    destruct (getEPSDrawing w) as [eps w1|e w1|w1] eqn:E.
    + rewrite (run_script_after_pipeline _ _ _ _ _ _ E) in H.
      injection H as <- <-. cbn [print_stderr set_files procs].
      revert E. pipeline_cases w; intros E; simplify_eq.
      cbn [procs set_procs].
      eexists. split; [by rewrite <- (assoc (++))|]. cbn [app].
      repeat constructor; by eexists.
    + rewrite (run_script_pipeline_raised _ _ _ _ _ _ E) in H.
      injection H as <- <-. cbn [print_stderr procs].
      revert E. pipeline_cases w; intros E; simplify_eq.
      * cbn [procs set_procs]. eexists. split; [reflexivity|].
        repeat constructor; by eexists.
      * exists []. by rewrite app_nil_r.
    + by rewrite (run_script_pipeline_hung _ _ _ _ _ E) in H.
Qed.

Lemma exit_leaves_no_unwaited_child_witness :
  run_script inv_ok world_convert_fails = Exit 1 world_after_failed_write
  ∧ is_Some (installed world_convert_fails !! potrace_cmd)
  ∧ ∃ new,
      procs world_after_failed_write = procs world_convert_fails ++ new
      ∧ Forall waited new.
Proof.
  split; [by vm_compute|]. split; [by eexists|].
  apply (exit_leaves_no_unwaited_child inv_ok world_convert_fails
           world_after_failed_write 1%Z); [by vm_compute|by eexists].
Defined.

(** However the pipeline ends, none of the children it added has had
    anything put into its stdin by the script, nor its stdin closed. *)
Lemma getEPSDrawing_stdin (w : World) :
  ∃ new,
    final_world (getEPSDrawing w) = set_procs (procs w ++ new) w
    ∧ Forall stdin_untouched new.
Proof.
  pipeline_cases w; cbn [final_world]; rewrite ?set_procs_twice;
    try (eexists; split; [by rewrite <- (assoc (++))|]; cbn [app];
         by repeat constructor).
  - eexists [_]. split; [done|]. by repeat constructor.
  - exists []. rewrite app_nil_r. split; [by destruct w|constructor].
Qed.

(** X10.  The script never gives input to a child: in every run, every
    child it started still has an empty stdin buffer that the script has
    not closed.  The bytes of the picture in particular go nowhere. *)
Theorem script_never_feeds_a_child (inv : Invocation) (w : World) :
  ∃ new,
    procs (term_world (run_script inv w)) = procs w ++ new
    ∧ Forall stdin_untouched new.
Proof.
  destruct inv as [a0 [|a1 rest]].
  - exists []. unfold run_script, sys_argv. cbn [script args].
    rewrite main_short. cbn. rewrite app_nil_r. split; [done|constructor].
  - destruct (getEPSDrawing_stdin w) as (new & Hw & Hun).
    exists new. split; [|done].
    destruct (getEPSDrawing w) as [eps w1|e w1|w1] eqn:E;
      cbn [final_world] in Hw.
    + rewrite (run_script_after_pipeline _ _ _ _ _ _ E). by rewrite Hw.
    + rewrite (run_script_pipeline_raised _ _ _ _ _ _ E). by rewrite Hw.
    + rewrite (run_script_pipeline_hung _ _ _ _ _ E). by rewrite Hw.
Qed.

(** X11.  What the capture tool delivers has no effect on how a run
    ends: with any two capture tools in an otherwise equal environment,
    the script ends (or hangs) alike, with the same exit status, the
    same text on stderr and the same file system. *)
Theorem picture_has_no_effect
    (inv : Invocation) (w : World) (t1 t2 : Tool) :
  let r1 := run_script inv (with_capture t1 w) in
  let r2 := run_script inv (with_capture t2 w) in
  exit_status r1 = exit_status r2
  ∧ files (term_world r1) = files (term_world r2)
  ∧ stderr_log (term_world r1) = stderr_log (term_world r2).
Proof.
  cbv zeta. destruct inv as [a0 [|a1 rest]]; unfold run_script, sys_argv;
    cbn [script args].
  - by rewrite !main_short.
  - rewrite !main_long.
    rewrite (getEPSDrawing_captured (with_capture t1 w) t1)
      by apply lookup_insert_eq.
    rewrite (getEPSDrawing_captured (with_capture t2 w) t2)
      by apply lookup_insert_eq.
    rewrite !jpegToEPS_eq. cbv zeta.
    cbn [installed with_capture set_procs procs tty_in].
    rewrite !(lookup_insert_ne (installed w) capture_cmd convert_cmd)
      by done.
    rewrite !(lookup_insert_ne (installed w) capture_cmd potrace_cmd)
      by done.
    destruct (installed w !! convert_cmd) as [tc|]; [|done].
    destruct (installed w !! potrace_cmd) as [tp|]; [|done].
    destruct (potrace_result tp (convert_result tc)) as [[out st]|]; [|done].
    destruct (convert_result tc) as [[oc sc]|]; done.
Qed.
